(** * GitVersion.cmake, examples/basic_usage/main.cpp

    A shallow embedding of the example program and of the part of the C++
    stream library it uses, followed by the properties of its console
    report. *)

From Stdlib Require Import ZArith List Ascii String Lia.
From Stdlib Require Import Numbers.DecimalString Numbers.DecimalPos Numbers.DecimalZ.
Import ListNotations.

Local Open Scope string_scope.
Local Open Scope Z_scope.

(** ** The generated header *)

(** Modelled from the spec: [version.h] is generated at build time and is
    absent from the sources.  The spec (section 3) gives it a combined display
    string and three integer fields; the four macros are the fields of this
    record, under the names [main.cpp] uses. *)
Record version_h : Type := mk_version_h {
  PROJECT_VERSION : string;
  PROJECT_VERSION_MAJOR : Z;
  PROJECT_VERSION_MINOR : Z;
  PROJECT_VERSION_PATCH : Z
}.

(** ** Output streams *)

Module Ostream.

(** The kind of each stream call, in program order (a ghost log). *)
Inductive call : Type :=
| CallString
| CallInt
| CallEndl.

(** [pending] is the stream buffer, [written] the bytes already handed to
    the file descriptor.  The buffer has no capacity here: a real stream may
    hand bytes over inside [operator<<] when its buffer fills, so [written]
    is exact after a flush and nothing is said about it in between. *)
Record ostream : Type := mk_ostream {
  written : string;
  pending : string;
  calls : list call
}.

(** [std::cout] at process start. *)
Definition cout : ostream :=
  {| written := ""; pending := ""; calls := [] |}.

Definition newline : ascii := ascii_of_nat 10.

(** Decimal text of an integer, as [operator<<(int)] prints it with the
    default flags: no padding, a minus sign for negative values. *)
Definition decimal (z : Z) : string :=
  NilZero.string_of_int (Z.to_int z).

Definition put_string (os : ostream) (s : string) : ostream :=
  {| written := written os;
     pending := pending os ++ s;
     calls := calls os ++ [CallString] |}.

Definition put_int (os : ostream) (z : Z) : ostream :=
  {| written := written os;
     pending := pending os ++ decimal z;
     calls := calls os ++ [CallInt] |}.

Definition put (os : ostream) (c : ascii) : ostream :=
  {| written := written os;
     pending := pending os ++ String c "";
     calls := calls os |}.

Definition flush (os : ostream) : ostream :=
  {| written := written os ++ pending os;
     pending := "";
     calls := calls os |}.

(** [std::endl]: insert a newline, then flush. *)
Definition endl (os : ostream) : ostream :=
  let os' := flush (put os newline) in
  {| written := written os'; pending := pending os';
     calls := calls os' ++ [CallEndl] |}.

(** The overloads of [operator<<] that [main] uses. *)
Class Insertable (A : Type) : Type :=
  insert : ostream -> A -> ostream.

#[export] Instance insert_string : Insertable string := put_string.
#[export] Instance insert_int : Insertable Z := put_int.
#[export] Instance insert_manip : Insertable (ostream -> ostream) :=
  fun os f => f os.

(** Everything sent to the stream so far, flushed or not. *)
Definition contents (os : ostream) : string :=
  written os ++ pending os.

End Ostream.

Import Ostream.

Declare Scope cxx_scope.
Delimit Scope cxx_scope with cxx.
Notation "os << x" := (insert os x)
  (at level 50, left associativity) : cxx_scope.

(** ** The program *)

Section Main.

Variable version : version_h.

(** [int main()]: six statements on [std::cout], then [return 0].  The
    result is the stream after the last statement and the return value. *)
Definition main (cout : ostream) : ostream * Z :=
  let cout := (cout << "Basic Example Application" << endl)%cxx in
  let cout := (cout << "------------------------" << endl)%cxx in
  let cout := (cout << "Version: " << PROJECT_VERSION version << endl)%cxx in
  let cout := (cout << "Major: " << PROJECT_VERSION_MAJOR version << endl)%cxx in
  let cout := (cout << "Minor: " << PROJECT_VERSION_MINOR version << endl)%cxx in
  let cout := (cout << "Patch: " << PROJECT_VERSION_PATCH version << endl)%cxx in
  (cout, 0).

End Main.

(** A process: the runtime calls [main], which has no parameters, so the
    argument vector never reaches it; standard output is what was flushed,
    and the exit status is [main]'s return value. *)
Record process_result : Type := mk_process_result {
  stdout : string;
  unflushed : string;
  exit_status : Z
}.

Definition run (version : version_h) (argv : list string) : process_result :=
  let '(os, rc) := main version cout in
  {| stdout := written os; unflushed := pending os; exit_status := rc |}.

(** ** Reading the report back *)

(** Number of occurrences of a character in a string. *)
Fixpoint count_char (c : ascii) (s : string) : nat :=
  match s with
  | EmptyString => 0%nat
  | String a s' =>
      if Ascii.eqb a c then S (count_char c s') else count_char c s'
  end.

Fixpoint all_chars (p : ascii -> bool) (s : string) : bool :=
  match s with
  | EmptyString => true
  | String a s' => p a && all_chars p s'
  end.

(** The characters [decimal] can produce: the ten digits and the sign. *)
Definition is_decimal_char (c : ascii) : bool :=
  let n := nat_of_ascii c in
  ((48 <=? n)%nat && (n <=? 57)%nat) || (n =? 45)%nat.

(** The lines of a text: every newline ends a line, and a last line needs no
    newline. *)
Fixpoint lines (s : string) : list string :=
  match s with
  | EmptyString => []
  | String a s' =>
      if Ascii.eqb a newline then "" :: lines s'
      else match lines s' with
           | [] => [String a ""]
           | l :: ls => String a l :: ls
           end
  end.

(** The fields of a text between occurrences of [sep]. *)
Fixpoint split_on (sep : ascii) (s : string) : list string :=
  match s with
  | EmptyString => [""]
  | String a s' =>
      if Ascii.eqb a sep then "" :: split_on sep s'
      else match split_on sep s' with
           | [] => [String a ""]
           | f :: fs => String a f :: fs
           end
  end.

Fixpoint strip_prefix (p s : string) : option string :=
  match p, s with
  | EmptyString, _ => Some s
  | String a p', String b s' =>
      if Ascii.eqb a b then strip_prefix p' s' else None
  | String _ _, EmptyString => None
  end.

(** Reading a decimal text back as an integer. *)
Definition parse_decimal (s : string) : option Z :=
  option_map Z.of_int (NilZero.int_of_string s).

Fixpoint parse_all (fs : list string) : option (list Z) :=
  match fs with
  | [] => Some []
  | f :: fs' =>
      match parse_decimal f, parse_all fs' with
      | Some z, Some zs => Some (z :: zs)
      | _, _ => None
      end
  end.

(** The text after a label on the line of the given index. *)
Definition labelled (label : string) (i : nat) (ls : list string)
  : option string :=
  match nth_error ls i with
  | Some l => strip_prefix label l
  | None => None
  end.

(** The numbers on the "Version: " line of a report. *)
Definition version_line_numbers (ls : list string) : option (list Z) :=
  match labelled "Version: " 2 ls with
  | Some t => parse_all (split_on "." t)
  | None => None
  end.

(** The numbers on the "Major: ", "Minor: " and "Patch: " lines. *)
Definition field_line_numbers (ls : list string) : option (list Z) :=
  match labelled "Major: " 3 ls, labelled "Minor: " 4 ls,
        labelled "Patch: " 5 ls with
  | Some a, Some b, Some c => parse_all [a; b; c]
  | _, _, _ => None
  end.

(** ** The report the spec describes *)

Definition title : string := "Basic Example Application".
Definition separator : string := "------------------------".

(** The conventional display string of three numbers. *)
Definition dotted (major minor patch : Z) : string :=
  decimal major ++ "." ++ decimal minor ++ "." ++ decimal patch.

(** The spec's invariant on a descriptor. *)
Definition consistent (v : version_h) : Prop :=
  PROJECT_VERSION v =
  dotted (PROJECT_VERSION_MAJOR v) (PROJECT_VERSION_MINOR v)
         (PROJECT_VERSION_PATCH v).

(** The six items of section 6 of the spec, in order. *)
Definition report_items (v : version_h) : list string :=
  [ title;
    separator;
    "Version: " ++ PROJECT_VERSION v;
    "Major: " ++ decimal (PROJECT_VERSION_MAJOR v);
    "Minor: " ++ decimal (PROJECT_VERSION_MINOR v);
    "Patch: " ++ decimal (PROJECT_VERSION_PATCH v) ].

(** Each item followed by a newline. *)
Fixpoint unlines (ls : list string) : string :=
  match ls with
  | [] => ""
  | l :: ls' => l ++ String newline (unlines ls')
  end.

(** The calls one statement [cout << text << endl] and one statement
    [cout << label << number << endl] make. *)
Definition main_calls : list call :=
  [ CallString; CallEndl;
    CallString; CallEndl;
    CallString; CallString; CallEndl;
    CallString; CallInt; CallEndl;
    CallString; CallInt; CallEndl;
    CallString; CallInt; CallEndl ].

(** ** The statements of [main], one by one *)

(** The six output statements of [main], in program order, each as the
    stream transformer it is. *)
Definition statements (v : version_h) : list (ostream -> ostream) :=
  [ fun cout => (cout << "Basic Example Application" << endl)%cxx;
    fun cout => (cout << "------------------------" << endl)%cxx;
    fun cout => (cout << "Version: " << PROJECT_VERSION v << endl)%cxx;
    fun cout => (cout << "Major: " << PROJECT_VERSION_MAJOR v << endl)%cxx;
    fun cout => (cout << "Minor: " << PROJECT_VERSION_MINOR v << endl)%cxx;
    fun cout => (cout << "Patch: " << PROJECT_VERSION_PATCH v << endl)%cxx ].

(** Running statements in sequence on a stream. *)
Definition run_statements (ss : list (ostream -> ostream)) (os : ostream)
  : ostream :=
  fold_left (fun s f => f s) ss os.

(** ** Reading a whole report back *)

(** The fields joined with [sep] between them. *)
Fixpoint join (sep : ascii) (fs : list string) : string :=
  match fs with
  | [] => ""
  | f :: fs' =>
      match fs' with
      | [] => f
      | _ :: _ => f ++ String sep (join sep fs')
      end
  end.

(** A number after its label. *)
Definition read_field (label line : string) : option Z :=
  match strip_prefix label line with
  | Some t => parse_decimal t
  | None => None
  end.

(** A reader for the text [main] writes: the title and the separator, then
    the "Version: " item, which runs up to the last three lines (a display
    string may itself hold line breaks), then the three numbers. *)
Definition read_report (out : string) : option version_h :=
  match lines out with
  | t :: s :: rest =>
      if ((t =? title)%string && (s =? separator)%string)%bool then
        let n := (List.length rest - 3)%nat in
        match strip_prefix "Version: " (join newline (firstn n rest)),
              skipn n rest with
        | Some pv, [a; b; c] =>
            match read_field "Major: " a, read_field "Minor: " b,
                  read_field "Patch: " c with
            | Some major, Some minor, Some patch =>
                Some (mk_version_h pv major minor patch)
            | _, _, _ => None
            end
        | _, _ => None
        end
      else None
  | _ => None
  end.

(** Whether a printed number starts with the sign. *)
Definition signed (t : string) : bool :=
  match t with
  | String c _ => Ascii.eqb c "-"
  | EmptyString => false
  end.

(** ** Strings *)

Lemma append_nil_r (s : string) : s ++ "" = s.
Proof. induction s as [|a s IH]; simpl; [reflexivity | now rewrite IH]. Qed.

Lemma append_assoc (s t u : string) : (s ++ t) ++ u = s ++ (t ++ u).
Proof. induction s as [|a s IH]; simpl; [reflexivity | now rewrite IH]. Qed.

Lemma count_char_app (c : ascii) (s t : string) :
  count_char c (s ++ t) = (count_char c s + count_char c t)%nat.
Proof.
  induction s as [|a s IH]; simpl; [reflexivity|].
  destruct (Ascii.eqb a c); simpl; now rewrite IH.
Qed.

Lemma all_chars_count (p : ascii -> bool) (c : ascii) (s : string) :
  all_chars p s = true -> p c = false -> count_char c s = 0%nat.
Proof.
  intros Hall Hc. induction s as [|a s IH]; simpl in *; [reflexivity|].
  apply andb_prop in Hall. destruct Hall as [Ha Hs].
  destruct (Ascii.eqb_spec a c) as [->|_].
  - congruence.
  - auto.
Qed.

(** ** Decimal text *)

Lemma uint_chars (d : Decimal.uint) :
  all_chars is_decimal_char (NilEmpty.string_of_uint d) = true.
Proof. induction d; simpl; auto. Qed.

Lemma decimal_chars (z : Z) : all_chars is_decimal_char (decimal z) = true.
Proof.
  unfold decimal.
  destruct (Z.to_int z) as [d|d]; simpl;
    destruct d; simpl; auto using uint_chars.
Qed.

Lemma decimal_no_newline (z : Z) : count_char newline (decimal z) = 0%nat.
Proof. apply (all_chars_count _ _ _ (decimal_chars z)). reflexivity. Qed.

Lemma decimal_no_dot (z : Z) : count_char "." (decimal z) = 0%nat.
Proof. apply (all_chars_count _ _ _ (decimal_chars z)). reflexivity. Qed.

Lemma to_int_proper (z : Z) :
  Z.to_int z <> Decimal.Pos Decimal.Nil /\ Z.to_int z <> Decimal.Neg Decimal.Nil.
Proof.
  destruct z as [|p|p]; simpl; split; try discriminate;
    intros [= H]; now apply (DecimalPos.Unsigned.to_uint_nonnil p).
Qed.

(** Reading back what [decimal] printed gives the number. *)
Lemma parse_decimal_decimal (z : Z) : parse_decimal (decimal z) = Some z.
Proof.
  unfold parse_decimal, decimal.
  destruct (to_int_proper z) as [Hp Hn].
  rewrite NilZero.isi by assumption.
  simpl. now rewrite DecimalZ.of_to.
Qed.

Lemma decimal_inj (a b : Z) : decimal a = decimal b -> a = b.
Proof.
  intros H. apply (f_equal parse_decimal) in H.
  rewrite !parse_decimal_decimal in H. congruence.
Qed.

(** ** Lines and fields *)

Lemma lines_line (l rest : string) :
  count_char newline l = 0%nat ->
  lines (l ++ String newline rest) = l :: lines rest.
Proof.
  induction l as [|a l IH]; simpl; intros H.
  - reflexivity.
  - destruct (Ascii.eqb a newline); [discriminate|].
    now rewrite (IH H).
Qed.

Lemma lines_unlines (ls : list string) :
  Forall (fun l => count_char newline l = 0%nat) ls ->
  lines (unlines ls) = ls.
Proof.
  induction 1 as [|l ls Hl _ IH]; simpl; [reflexivity|].
  now rewrite (lines_line _ _ Hl), IH.
Qed.

(** A text that ends in a newline has as many lines as newlines. *)
Lemma length_lines_terminated (s : string) :
  List.length (lines (s ++ String newline "")) =
  S (count_char newline s).
Proof.
  induction s as [|a s IH]; simpl; [reflexivity|].
  destruct (Ascii.eqb a newline); simpl.
  - now rewrite IH.
  - destruct (lines (s ++ String newline "")) as [|l ls]; simpl in *;
      [discriminate | exact IH].
Qed.

Lemma unlines_snoc (ls : list string) (l : string) :
  unlines (ls ++ [l]) = unlines ls ++ l ++ String newline "".
Proof.
  induction ls as [|k ls IH]; simpl.
  - reflexivity.
  - now rewrite IH, append_assoc.
Qed.

Lemma count_char_unlines (ls : list string) :
  count_char newline (unlines ls) =
  (List.length ls + list_sum (map (count_char newline) ls))%nat.
Proof.
  induction ls as [|l ls IH]; simpl; [reflexivity|].
  rewrite count_char_app. simpl. rewrite IH. lia.
Qed.

Lemma length_lines_unlines (ls : list string) :
  List.length (lines (unlines ls)) =
  (List.length ls + list_sum (map (count_char newline) ls))%nat.
Proof.
  destruct (rev ls) as [|l sl] eqn:E.
  - apply (f_equal (@rev string)) in E. rewrite rev_involutive in E.
    now subst.
  - apply (f_equal (@rev string)) in E. rewrite rev_involutive in E.
    simpl in E. subst ls.
    rewrite unlines_snoc, <- append_assoc, length_lines_terminated.
    rewrite count_char_app, count_char_unlines.
    rewrite length_app, map_app, list_sum_app. simpl. lia.
Qed.

Lemma split_on_field (sep : ascii) (f rest : string) :
  count_char sep f = 0%nat ->
  split_on sep (f ++ String sep rest) = f :: split_on sep rest.
Proof.
  induction f as [|a f IH]; simpl; intros H.
  - now rewrite Ascii.eqb_refl.
  - destruct (Ascii.eqb a sep); [discriminate|].
    now rewrite (IH H).
Qed.

Lemma split_on_last (sep : ascii) (f : string) :
  count_char sep f = 0%nat -> split_on sep f = [f].
Proof.
  induction f as [|a f IH]; simpl; intros H.
  - reflexivity.
  - destruct (Ascii.eqb a sep); [discriminate|].
    now rewrite (IH H).
Qed.

Lemma split_on_dotted (a b c : Z) :
  split_on "." (dotted a b c) = [decimal a; decimal b; decimal c].
Proof.
  unfold dotted.
  change (decimal a ++ "." ++ decimal b ++ "." ++ decimal c)
    with (decimal a ++ String "." (decimal b ++ String "." (decimal c))).
  rewrite (split_on_field _ _ _ (decimal_no_dot a)).
  rewrite (split_on_field _ _ _ (decimal_no_dot b)).
  now rewrite (split_on_last _ _ (decimal_no_dot c)).
Qed.

Lemma dotted_no_newline (a b c : Z) :
  count_char newline (dotted a b c) = 0%nat.
Proof.
  unfold dotted. rewrite !count_char_app, !decimal_no_newline. reflexivity.
Qed.

Lemma strip_prefix_app (p s : string) : strip_prefix p (p ++ s) = Some s.
Proof.
  induction p as [|a p IH]; simpl; [reflexivity|].
  now rewrite Ascii.eqb_refl.
Qed.

(** ** The stream after [main] *)

(** One statement [cout << text << endl]. *)
Lemma statement_text (os : ostream) (text : string) :
  (os << text << endl)%cxx =
  {| written := written os ++ pending os ++ text ++ String newline "";
     pending := "";
     calls := calls os ++ [CallString; CallEndl] |}.
Proof.
  unfold insert, insert_manip, insert_string, endl, flush, put, put_string.
  cbn [written pending calls].
  now rewrite !append_assoc, <- app_assoc.
Qed.

(** One statement [cout << label << text << endl]. *)
Lemma statement_string (os : ostream) (label text : string) :
  (os << label << text << endl)%cxx =
  {| written := written os ++ pending os ++ (label ++ text) ++ String newline "";
     pending := "";
     calls := calls os ++ [CallString; CallString; CallEndl] |}.
Proof.
  unfold insert, insert_manip, insert_string, endl, flush, put, put_string.
  cbn [written pending calls].
  now rewrite !append_assoc, <- !app_assoc.
Qed.

(** One statement [cout << label << number << endl]. *)
Lemma statement_int (os : ostream) (label : string) (z : Z) :
  (os << label << z << endl)%cxx =
  {| written := written os ++ pending os ++ (label ++ decimal z) ++ String newline "";
     pending := "";
     calls := calls os ++ [CallString; CallInt; CallEndl] |}.
Proof.
  unfold insert, insert_manip, insert_string, insert_int.
  unfold endl, flush, put, put_string, put_int.
  cbn [written pending calls].
  now rewrite !append_assoc, <- !app_assoc.
Qed.

(** From any stream state [main] flushes what was pending, then the six
    items, each with its newline; nothing stays in the buffer, the calls are
    the sixteen of [main_calls], and the return value is 0. *)
Lemma main_spec (v : version_h) (os : ostream) :
  main v os =
  ({| written := written os ++ pending os ++ unlines (report_items v);
      pending := "";
      calls := calls os ++ main_calls |}, 0).
Proof.
  unfold main. cbv zeta.
  rewrite !statement_int, statement_string, !statement_text.
  cbn [written pending calls].
  f_equal. f_equal.
  - unfold report_items, unlines. fold title separator.
    rewrite ?append_nil_r, !append_assoc. reflexivity.
  - rewrite <- !app_assoc. reflexivity.
Qed.

Lemma run_spec (v : version_h) (argv : list string) :
  run v argv =
  {| stdout := unlines (report_items v); unflushed := ""; exit_status := 0 |}.
Proof. unfold run. rewrite main_spec. reflexivity. Qed.

Lemma report_items_no_newline (v : version_h) :
  count_char newline (PROJECT_VERSION v) = 0%nat ->
  Forall (fun l => count_char newline l = 0%nat) (report_items v).
Proof.
  intros H. unfold report_items.
  repeat constructor; try reflexivity;
    rewrite count_char_app; rewrite ?H, ?decimal_no_newline; reflexivity.
Qed.

Lemma lines_run (v : version_h) (argv : list string) :
  count_char newline (PROJECT_VERSION v) = 0%nat ->
  lines (stdout (run v argv)) = report_items v.
Proof.
  intros H. rewrite run_spec. cbn [stdout].
  apply lines_unlines, report_items_no_newline, H.
Qed.

Lemma length_lines_run (v : version_h) (argv : list string) :
  List.length (lines (stdout (run v argv))) =
  (6 + count_char newline (PROJECT_VERSION v))%nat.
Proof.
  rewrite run_spec. cbn [stdout].
  rewrite length_lines_unlines. unfold report_items.
  cbn [List.length map list_sum fold_right].
  rewrite !count_char_app, !decimal_no_newline.
  change (count_char newline title) with 0%nat.
  change (count_char newline separator) with 0%nat.
  change (count_char newline "Version: ") with 0%nat.
  change (count_char newline "Major: ") with 0%nat.
  change (count_char newline "Minor: ") with 0%nat.
  change (count_char newline "Patch: ") with 0%nat.
  lia.
Qed.

(** ** Properties of the report *)

(** C1: for a descriptor with non-negative numbers M, N, P and display string
    "M.N.P", standard output is exactly six lines, in order: the title
    "Basic Example Application", the separator, "Version: " with the display
    string, then "Major: ", "Minor: " and "Patch: " with the numbers; each
    line ends in a newline. *)
Theorem report_six_lines_in_order (v : version_h) (argv : list string) :
  0 <= PROJECT_VERSION_MAJOR v ->
  0 <= PROJECT_VERSION_MINOR v ->
  0 <= PROJECT_VERSION_PATCH v ->
  consistent v ->
  let out := stdout (run v argv) in
  lines out =
    [ "Basic Example Application";
      "------------------------";
      "Version: " ++ PROJECT_VERSION v;
      "Major: " ++ decimal (PROJECT_VERSION_MAJOR v);
      "Minor: " ++ decimal (PROJECT_VERSION_MINOR v);
      "Patch: " ++ decimal (PROJECT_VERSION_PATCH v) ]
  /\ List.length (lines out) = 6%nat
  /\ out = unlines (lines out).
Proof.
  intros _ _ _ Hv out.
  assert (Hl : lines out = report_items v).
  { apply lines_run. rewrite Hv. apply dotted_no_newline. }
  rewrite Hl. repeat split.
  unfold out. now rewrite run_spec.
Qed.

Lemma report_six_lines_in_order_witness :
  consistent (mk_version_h "0.0.0" 0 0 0) /\
  lines (stdout (run (mk_version_h "0.0.0" 0 0 0) [])) =
    [ "Basic Example Application";
      "------------------------";
      "Version: 0.0.0"; "Major: 0"; "Minor: 0"; "Patch: 0" ].
Proof.
  split; [reflexivity|].
  apply (report_six_lines_in_order (mk_version_h "0.0.0" 0 0 0) []);
    simpl; try lia; reflexivity.
Defined.

(** C2, as amended: for every descriptor the report is six newline-terminated
    items in fixed order (title, separator, "Version: " + display string,
    "Major: ", "Minor: ", "Patch: " + number); standard output has six lines
    plus one for every line break inside the display string. *)
Theorem report_six_items (v : version_h) (argv : list string) :
  stdout (run v argv) =
    unlines [ title; separator;
              "Version: " ++ PROJECT_VERSION v;
              "Major: " ++ decimal (PROJECT_VERSION_MAJOR v);
              "Minor: " ++ decimal (PROJECT_VERSION_MINOR v);
              "Patch: " ++ decimal (PROJECT_VERSION_PATCH v) ]
  /\ List.length (lines (stdout (run v argv))) =
     (6 + count_char newline (PROJECT_VERSION v))%nat.
Proof.
  split; [now rewrite run_spec | apply length_lines_run].
Qed.

(** C2, as stated, fails: the report does not have five lines for every
    descriptor; for (1, 2, 3) with "1.2.3" it has six. *)
Lemma report_not_five_lines :
  ~ (forall (v : version_h) (argv : list string),
       List.length (lines (stdout (run v argv))) = 5%nat).
Proof.
  intros H. specialize (H (mk_version_h "1.2.3" 1 2 3) []).
  rewrite length_lines_run in H. discriminate H.
Qed.

(** C3: for the descriptor (1, 2, 3) with display string "1.2.3" standard
    output is exactly the block of section 8 of the spec. *)
Theorem report_1_2_3 (argv : list string) :
  let out := stdout (run (mk_version_h "1.2.3" 1 2 3) argv) in
  lines out =
    [ "Basic Example Application";
      "------------------------";
      "Version: 1.2.3";
      "Major: 1";
      "Minor: 2";
      "Patch: 3" ]
  /\ out =
     "Basic Example Application" ++ String newline
     ("------------------------" ++ String newline
     ("Version: 1.2.3" ++ String newline
     ("Major: 1" ++ String newline
     ("Minor: 2" ++ String newline
     ("Patch: 3" ++ String newline ""))))).
Proof.
  intros out. unfold out. rewrite run_spec. split; reflexivity.
Qed.

(** C4: for every descriptor, and from every stream state, [main] returns 0
    after the report is complete: the process has written all six items to
    standard output, nothing is left in the buffer, and its exit status is 0
    and never anything else. *)
Theorem exit_status_zero (v : version_h) (argv : list string) (os : ostream) :
  snd (main v os) = 0
  /\ exit_status (run v argv) = 0
  /\ stdout (run v argv) = unlines (report_items v)
  /\ unflushed (run v argv) = ""
  /\ written (fst (main v os)) = contents os ++ unlines (report_items v)
  /\ pending (fst (main v os)) = "".
Proof.
  rewrite main_spec, run_spec. cbn [fst snd written pending].
  cbn [stdout unflushed exit_status]. unfold contents.
  repeat split. now rewrite append_assoc.
Qed.

(** C5: the output is a function of the descriptor alone, [unlines
    (report_items v)].  Every process with that descriptor writes these
    bytes; and whatever the stream held before, [main] adds exactly these
    bytes, so a second run after a first writes the same block again. *)
Theorem report_deterministic (v : version_h) (argv : list string)
    (os : ostream) :
  let out := unlines (report_items v) in
  stdout (run v argv) = out
  /\ written (fst (main v os)) = contents os ++ out
  /\ written (fst (main v (fst (main v os)))) = (contents os ++ out) ++ out.
Proof.
  intros out. unfold out, contents.
  rewrite !main_spec, run_spec. cbn [fst written pending stdout].
  repeat split.
  - now rewrite append_assoc.
  - now rewrite !append_assoc.
Qed.

(** C6: no validation and no error path.  For every descriptor, negative
    numbers and arbitrary display strings included, the run makes the same
    sixteen stream calls in the same order, writes all six items, leaves
    nothing unflushed and exits with status 0. *)
Theorem no_validation_no_error_path (v : version_h) (argv : list string)
    (os : ostream) :
  run v argv =
    {| stdout := unlines (report_items v);
       unflushed := "";
       exit_status := 0 |}
  /\ calls (fst (main v os)) = (calls os ++ main_calls)%list
  /\ pending (fst (main v os)) = "".
Proof.
  rewrite main_spec, run_spec. repeat split.
Qed.

Lemma parse_all_decimals (a b c : Z) :
  parse_all [decimal a; decimal b; decimal c] = Some [a; b; c].
Proof. cbn [parse_all]. now rewrite !parse_decimal_decimal. Qed.

Lemma labelled_version (v : version_h) :
  labelled "Version: " 2 (report_items v) = Some (PROJECT_VERSION v).
Proof. apply (strip_prefix_app "Version: "). Qed.

Lemma field_line_numbers_report (v : version_h) :
  field_line_numbers (report_items v) =
  Some [ PROJECT_VERSION_MAJOR v; PROJECT_VERSION_MINOR v;
         PROJECT_VERSION_PATCH v ].
Proof.
  unfold field_line_numbers, labelled, report_items. cbn [nth_error].
  rewrite (strip_prefix_app "Major: "), (strip_prefix_app "Minor: "),
    (strip_prefix_app "Patch: ").
  apply parse_all_decimals.
Qed.

(** C7: when the display string is "{major}.{minor}.{patch}", the three
    numbers read back from the "Version: " line are the numbers read back
    from the "Major: ", "Minor: " and "Patch: " lines, and these are the
    descriptor's fields. *)
Theorem version_line_consistent (v : version_h) (argv : list string) :
  consistent v ->
  let ls := lines (stdout (run v argv)) in
  version_line_numbers ls = field_line_numbers ls
  /\ field_line_numbers ls =
     Some [ PROJECT_VERSION_MAJOR v; PROJECT_VERSION_MINOR v;
            PROJECT_VERSION_PATCH v ].
Proof.
  intros Hv ls.
  assert (Hl : ls = report_items v).
  { apply lines_run. rewrite Hv. apply dotted_no_newline. }
  rewrite Hl, field_line_numbers_report. split; [|reflexivity].
  unfold version_line_numbers. rewrite labelled_version, Hv.
  rewrite split_on_dotted. apply parse_all_decimals.
Qed.

Lemma version_line_consistent_witness :
  consistent (mk_version_h "1.2.3" 1 2 3) /\
  version_line_numbers
    (lines (stdout (run (mk_version_h "1.2.3" 1 2 3) []))) =
  field_line_numbers
    (lines (stdout (run (mk_version_h "1.2.3" 1 2 3) []))) /\
  field_line_numbers
    (lines (stdout (run (mk_version_h "1.2.3" 1 2 3) []))) =
  Some [1; 2; 3].
Proof.
  split; [reflexivity|].
  apply (version_line_consistent (mk_version_h "1.2.3" 1 2 3) []).
  reflexivity.
Defined.

(** The same check by evaluation, and with a negative field. *)
Example version_line_numbers_1_2_3 :
  version_line_numbers
    (lines (stdout (run (mk_version_h "1.2.3" 1 2 3) []))) = Some [1; 2; 3].
Proof. rewrite lines_run by reflexivity. reflexivity. Qed.

Example report_negative_major :
  lines (stdout (run (mk_version_h "-1.0.7" (-1) 0 7) [])) =
    [ "Basic Example Application";
      "------------------------";
      "Version: -1.0.7"; "Major: -1"; "Minor: 0"; "Patch: 7" ].
Proof. rewrite lines_run by reflexivity. reflexivity. Qed.

(** C8: the argument vector is not consumed: two invocations with the same
    descriptor and different arguments have the same output and the same
    exit status. *)
Theorem arguments_ignored (v : version_h) (argv1 argv2 : list string) :
  run v argv1 = run v argv2
  /\ stdout (run v argv1) = stdout (run v argv2)
  /\ exit_status (run v argv1) = exit_status (run v argv2).
Proof.
  assert (H : run v argv1 = run v argv2).
  { rewrite (run_spec v argv1). symmetry. apply run_spec. }
  split; [exact H|]. rewrite H. split; reflexivity.
Qed.

(** C9: the second line of output is the separator, 24 characters, all of
    them '-'; the title line above it has 25 characters, one more. *)
Theorem separator_shorter_than_title (v : version_h) (argv : list string) :
  nth_error (lines (stdout (run v argv))) 0 = Some title
  /\ nth_error (lines (stdout (run v argv))) 1 = Some separator
  /\ String.length separator = 24%nat
  /\ all_chars (Ascii.eqb "-") separator = true
  /\ String.length title = 25%nat
  /\ S (String.length separator) = String.length title.
Proof.
  rewrite run_spec. cbn [stdout]. unfold report_items.
  cbn [unlines].
  rewrite (lines_line title) by reflexivity.
  rewrite (lines_line separator) by reflexivity.
  repeat split.
Qed.

(** C10: the "Version: " item is the display string as supplied, for every
    descriptor; and for the descriptor (1, 2, 3) with display string "9.9.9",
    which is not "1.2.3", the numbers on the "Version: " line differ from
    those on the "Major: ", "Minor: " and "Patch: " lines. *)
Theorem version_line_verbatim :
  (forall (v : version_h) (argv : list string),
     exists before after : string,
       before = unlines [title; separator] /\
       stdout (run v argv) =
       before ++ "Version: " ++ PROJECT_VERSION v ++ String newline after)
  /\ exists v : version_h,
       ~ consistent v /\
       version_line_numbers (lines (stdout (run v []))) = Some [9; 9; 9] /\
       field_line_numbers (lines (stdout (run v []))) = Some [1; 2; 3].
Proof.
  split.
  - intros v argv. rewrite run_spec.
    exists (unlines [title; separator]).
    exists (unlines [ "Major: " ++ decimal (PROJECT_VERSION_MAJOR v);
                      "Minor: " ++ decimal (PROJECT_VERSION_MINOR v);
                      "Patch: " ++ decimal (PROJECT_VERSION_PATCH v) ]).
    split; [reflexivity|].
    cbn [stdout]. unfold report_items. cbn [unlines].
    now rewrite !append_assoc.
  - exists (mk_version_h "9.9.9" 1 2 3). split; [|split].
    + unfold consistent. cbn. discriminate.
    + rewrite lines_run by reflexivity. reflexivity.
    + rewrite lines_run by reflexivity. reflexivity.
Qed.

(** ** More on lines and fields *)

Lemma split_on_nonempty (sep : ascii) (s : string) : split_on sep s <> [].
Proof.
  destruct s as [|a s]; simpl; [discriminate|].
  destruct (Ascii.eqb a sep); [discriminate|].
  destruct (split_on sep s); discriminate.
Qed.

(** Up to a newline the lines of a text are its newline-separated fields. *)
Lemma lines_app_newline (x y : string) :
  lines (x ++ String newline y) = (split_on newline x ++ lines y)%list.
Proof.
  induction x as [|a x IH]; simpl.
  - reflexivity.
  - rewrite IH. destruct (Ascii.eqb a newline); [reflexivity|].
    pose proof (split_on_nonempty newline x) as Hne.
    destruct (split_on newline x) as [|f fs]; [contradiction|reflexivity].
Qed.

Lemma join_split_on (sep : ascii) (s : string) :
  join sep (split_on sep s) = s.
Proof.
  induction s as [|a s IH]; simpl; [reflexivity|].
  pose proof (split_on_nonempty sep s) as Hne.
  destruct (Ascii.eqb_spec a sep) as [->|Hn].
  - destruct (split_on sep s) as [|f fs]; [contradiction|].
    cbn [join] in *. cbn [append]. now rewrite IH.
  - destruct (split_on sep s) as [|f fs]; [contradiction|].
    cbn [join] in *. destruct fs as [|g gs].
    + now rewrite IH.
    + cbn [append]. now rewrite IH.
Qed.

Lemma unlines_split_on (x : string) :
  unlines (split_on newline x) = x ++ String newline "".
Proof.
  induction x as [|a x IH]; simpl; [reflexivity|].
  pose proof (split_on_nonempty newline x) as Hne.
  destruct (Ascii.eqb_spec a newline) as [->|Hn].
  - cbn [unlines append]. now rewrite IH.
  - destruct (split_on newline x) as [|f fs]; [contradiction|].
    cbn [unlines append] in *. now rewrite IH.
Qed.

Lemma unlines_app (ks ls : list string) :
  unlines (ks ++ ls) = unlines ks ++ unlines ls.
Proof.
  induction ks as [|k ks IH]; simpl; [reflexivity|].
  now rewrite IH, append_assoc.
Qed.

Lemma firstn_length_app {A : Type} (l l' : list A) :
  firstn (List.length l) (l ++ l') = l.
Proof. induction l as [|a l IH]; simpl; [now destruct l' | now rewrite IH]. Qed.

Lemma skipn_length_app {A : Type} (l l' : list A) :
  skipn (List.length l) (l ++ l') = l'.
Proof. induction l as [|a l IH]; simpl; [reflexivity | exact IH]. Qed.

(** The lines of the report for any display string, line breaks included. *)
Lemma lines_run_any (v : version_h) (argv : list string) :
  lines (stdout (run v argv)) =
  title :: separator ::
  List.app (split_on newline ("Version: " ++ PROJECT_VERSION v))
    [ "Major: " ++ decimal (PROJECT_VERSION_MAJOR v);
      "Minor: " ++ decimal (PROJECT_VERSION_MINOR v);
      "Patch: " ++ decimal (PROJECT_VERSION_PATCH v) ].
Proof.
  rewrite run_spec. cbn [stdout]. unfold report_items. cbn [unlines].
  rewrite (lines_line title) by reflexivity.
  rewrite (lines_line separator) by reflexivity.
  rewrite lines_app_newline.
  do 2 f_equal. f_equal.
  change (lines
            (("Major: " ++ decimal (PROJECT_VERSION_MAJOR v)) ++
             String newline
               (("Minor: " ++ decimal (PROJECT_VERSION_MINOR v)) ++
                String newline
                  (("Patch: " ++ decimal (PROJECT_VERSION_PATCH v)) ++
                   String newline ""))))
    with (lines (unlines
            [ "Major: " ++ decimal (PROJECT_VERSION_MAJOR v);
              "Minor: " ++ decimal (PROJECT_VERSION_MINOR v);
              "Patch: " ++ decimal (PROJECT_VERSION_PATCH v) ])).
  apply lines_unlines.
  repeat constructor;
    rewrite count_char_app, decimal_no_newline; reflexivity.
Qed.

Lemma read_field_decimal (label : string) (z : Z) :
  read_field label (label ++ decimal z) = Some z.
Proof.
  unfold read_field. now rewrite strip_prefix_app, parse_decimal_decimal.
Qed.

Lemma signed_decimal (z : Z) : signed (decimal z) = (z <? 0).
Proof.
  destruct z as [|p|p]; [reflexivity| |].
  - unfold decimal. cbn [Z.to_int NilZero.string_of_int Z.ltb Z.compare].
    pose proof (DecimalPos.Unsigned.to_uint_nonnil p) as Hn.
    destruct (Pos.to_uint p) as [|d|d|d|d|d|d|d|d|d|d];
      [contradiction|..]; reflexivity.
  - reflexivity.
Qed.

(** ** Further properties of [main] *)

(** X1: the report loses nothing.  Reading standard output back gives the
    descriptor [main] printed, for every descriptor: any integers, any
    display string, line breaks inside it included. *)
Theorem read_report_run (v : version_h) (argv : list string) :
  read_report (stdout (run v argv)) = Some v.
Proof.
  unfold read_report. rewrite lines_run_any.
  rewrite !String.eqb_refl. cbn [andb].
  rewrite length_app. cbn [List.length].
  replace (List.length (split_on newline ("Version: " ++ PROJECT_VERSION v))
           + 3 - 3)%nat
    with (List.length (split_on newline ("Version: " ++ PROJECT_VERSION v)))
    by lia.
  rewrite firstn_length_app, skipn_length_app, join_split_on.
  rewrite (strip_prefix_app "Version: ").
  rewrite !read_field_decimal.
  now destruct v.
Qed.

(** X2: two runs with the same standard output had the same descriptor: no
    two different descriptors share a report. *)
Theorem report_injective (v1 v2 : version_h) (argv1 argv2 : list string) :
  stdout (run v1 argv1) = stdout (run v2 argv2) -> v1 = v2.
Proof.
  intros H. apply (f_equal read_report) in H.
  rewrite !read_report_run in H. now injection H.
Qed.

Lemma report_injective_witness :
  stdout (run (mk_version_h "2.0.1" 2 0 1) ["a"]) =
  stdout (run (mk_version_h "2.0.1" 2 0 1) []) /\
  mk_version_h "2.0.1" 2 0 1 = mk_version_h "2.0.1" 2 0 1.
Proof.
  split; [now rewrite !run_spec|].
  apply (report_injective _ _ ["a"] []). now rewrite !run_spec.
Defined.

(** A statement that writes one item and its newline, and flushes. *)
Lemma run_statements_items (ss : list (ostream -> ostream))
    (items : list string) :
  Forall2 (fun f item => forall os,
             written (f os) =
               written os ++ pending os ++ item ++ String newline ""
             /\ pending (f os) = "") ss items ->
  forall os, pending os = "" ->
    written (run_statements ss os) = written os ++ unlines items
    /\ pending (run_statements ss os) = "".
Proof.
  unfold run_statements.
  induction 1 as [|f item ss items Hf _ IH]; intros os Hos.
  - cbn [fold_left unlines]. now rewrite append_nil_r.
  - cbn [fold_left unlines].
    destruct (Hf os) as [Hw Hp].
    destruct (IH (f os) Hp) as [IHw IHp].
    split; [|exact IHp].
    rewrite IHw, Hw, Hos. cbn [append].
    now rewrite !append_assoc.
Qed.

Lemma Forall2_firstn {A B : Type} (R : A -> B -> Prop) (k : nat)
    (l : list A) (l' : list B) :
  Forall2 R l l' -> Forall2 R (firstn k l) (firstn k l').
Proof.
  intros H. revert k.
  induction H as [|a b l l' Hab _ IH]; intros [|k]; cbn [firstn];
    constructor; auto.
Qed.

Lemma statements_items (v : version_h) :
  Forall2 (fun f item => forall os,
             written (f os) =
               written os ++ pending os ++ item ++ String newline ""
             /\ pending (f os) = "")
    (statements v) (report_items v).
Proof.
  unfold statements, report_items.
  repeat constructor;
    rewrite ?statement_int, ?statement_string, ?statement_text;
    reflexivity.
Qed.

(** X3: at statement boundaries.  [main] is its six statements in
    sequence, each ending in [endl]; once the first [k] of them have
    completed on a fresh stream, standard output holds exactly the first [k]
    items, each with its newline, and the buffer is empty.  (What has been
    handed over in the middle of a statement is not fixed.) *)
Theorem statement_boundaries (v : version_h) (k : nat) :
  (forall os, main v os = (run_statements (statements v) os, 0))
  /\ written (run_statements (firstn k (statements v)) cout) =
     unlines (firstn k (report_items v))
  /\ pending (run_statements (firstn k (statements v)) cout) = "".
Proof.
  split; [reflexivity|].
  apply (run_statements_items _ _
           (Forall2_firstn _ k _ _ (statements_items v)) cout).
  reflexivity.
Qed.

(** X4: when the display string has no line break, the "Major: ", "Minor: "
    and "Patch: " lines are lines four to six, and the number on each starts
    with a minus sign exactly when the field is negative. *)
Theorem field_lines_sign (v : version_h) (argv : list string) :
  count_char newline (PROJECT_VERSION v) = 0%nat ->
  option_map signed (labelled "Major: " 3 (lines (stdout (run v argv)))) =
    Some (PROJECT_VERSION_MAJOR v <? 0)
  /\ option_map signed (labelled "Minor: " 4 (lines (stdout (run v argv)))) =
    Some (PROJECT_VERSION_MINOR v <? 0)
  /\ option_map signed (labelled "Patch: " 5 (lines (stdout (run v argv)))) =
    Some (PROJECT_VERSION_PATCH v <? 0).
Proof.
  intros H. rewrite (lines_run v argv H).
  unfold labelled, report_items. cbn [nth_error].
  rewrite (strip_prefix_app "Major: "), (strip_prefix_app "Minor: "),
    (strip_prefix_app "Patch: ").
  cbn [option_map]. now rewrite !signed_decimal.
Qed.

Lemma field_lines_sign_witness :
  count_char newline "-1.0.7" = 0%nat /\
  option_map signed
    (labelled "Major: " 3
       (lines (stdout (run (mk_version_h "-1.0.7" (-1) 0 7) [])))) =
  Some true.
Proof.
  split; [reflexivity|].
  apply (field_lines_sign (mk_version_h "-1.0.7" (-1) 0 7) []).
  reflexivity.
Defined.

(** X5: standard output is whole lines for every descriptor: putting a
    newline after each of its lines gives the output back, byte for byte,
    also when the display string holds line breaks. *)
Theorem stdout_whole_lines (v : version_h) (argv : list string) :
  unlines (lines (stdout (run v argv))) = stdout (run v argv).
Proof.
  rewrite lines_run_any, run_spec. cbn [stdout].
  unfold report_items. cbn [unlines].
  do 2 f_equal. f_equal.
  rewrite unlines_app, unlines_split_on. cbn [unlines].
  now rewrite !append_assoc.
Qed.
